(** * PullRequestSidebarEntry: the sidebar row of one pull request

    A shallow embedding of
    [apps/desktop/src/lib/navigation/PullRequestSidebarEntry.svelte]:
    the URL formatter, the derived [selected] flag, the pointer-down
    handler and the props and snippet handed to the generic
    [SidebarEntry] view, followed by the properties the specification
    states about them. *)

From Stdlib Require Import String Ascii List ZArith Bool Lia DecimalString.
From Stdlib Require DecimalPos DecimalZ.
From ExtLib Require Import Structures.Monad Structures.MonadState Structures.MonadExc.
From ExtLib Require Import Data.Monads.StateMonad Data.Monads.EitherMonad.
Import ListNotations.
Import MonadNotation.
Local Open Scope monad_scope.
Local Open Scope string_scope.

#[local] Existing Instance Monad_stateT.

(** ** The fragment of JavaScript the component is written in *)

Module JS.

(** A thrown exception.  The only one script code of this shape can
    raise is the [TypeError] of a property read on [null] or
    [undefined]. *)
Inductive error : Type :=
| TypeError (message : string).

(** [ToBoolean]: the empty string, [undefined] and [null] are falsy;
    an object is always truthy. *)
Class Truthy (A : Type) : Type := truthy : A -> bool.

#[global] Instance Truthy_string : Truthy string :=
  fun s => match s with EmptyString => false | String _ _ => true end.

#[global] Instance Truthy_bool : Truthy bool := fun b => b.

(** [option A] is [A | undefined] (or [A | null]): the missing value is
    falsy, a value that is there is as truthy as it is in [A]. *)
#[global] Instance Truthy_option {A} `{Truthy A} : Truthy (option A) :=
  fun o => match o with None => false | Some a => truthy a end.

(** [a || b]: the left operand when it is truthy, else the right one. *)
Definition or {A} `{Truthy A} (a : option A) (b : A) : A :=
  match a with
  | Some v => if truthy v then v else b
  | None => b
  end.

(** [a && b]: the left operand when it is falsy, else the right one. *)
Definition and {A B} `{Truthy A} (a : A) (b : B) : A + B :=
  if truthy a then inr b else inl a.

(** [a === b] on two strings. *)
Definition strict_eq (a b : string) : bool := String.eqb a b.

(** [o?.f]: [undefined] when [o] is [null] or [undefined], else the
    (optional) property. *)
Definition opt_chain {A B} (o : option A) (f : A -> option B) : option B :=
  match o with
  | None => None
  | Some a => f a
  end.

(** [o.f]: a [TypeError] when [o] is [null] or [undefined]. *)
Definition member {A B} (o : option A) (prop : string) (f : A -> B) : error + B :=
  match o with
  | None => inl (TypeError ("Cannot read properties of undefined (reading '" ++ prop ++ "')"))
  | Some a => inr (f a)
  end.

(** A [number].  Pull-request numbers are integers handed out by the
    git host; the embedding covers the integer-valued numbers of the
    safe range, on which [ToString] is the decimal numeral. *)
Definition number : Type := Z.

Definition Number_toString (n : number) : string :=
  NilZero.string_of_int (Z.to_int n).

(** Evaluation of a template literal whose substitutions have already
    been converted with [ToString]: the cooked strings and the
    substitutions alternate, starting and ending with a cooked
    string. *)
Fixpoint template (quasis : list string) (substitutions : list string) : string :=
  match quasis with
  | [] => ""
  | q :: quasis' =>
      match substitutions with
      | [] => q
      | s :: substitutions' => q ++ s ++ template quasis' substitutions'
      end
  end.

End JS.

(** ** Data model *)

(** A [Date] object, as its time value: the milliseconds since the
    epoch. *)
Module Date.
Record t : Type := { getTime : Z }.
End Date.

(** Modelled from the spec: [$lib/gitHost/interface/types] is not part of
    the sources at hand.  An author has an optional name and an optional
    avatar image URL. *)
Module Author.
Record t : Type := {
  name : option string;
  gravatarUrl : option string
}.
End Author.

(** Modelled from the spec: [$lib/gitHost/interface/types] is not part of
    the sources at hand.  [number] and [title] are always there, [author]
    and [modifiedAt] may be missing. *)
Module PullRequest.
Record t : Type := {
  number : JS.number;
  title : string;
  author : option Author.t;
  modifiedAt : option Date.t
}.

(** A pull request is an object, hence truthy. *)
#[global] Instance Truthy_t : JS.Truthy t := fun _ => true.
End PullRequest.

(** Modelled from the spec: [$lib/backend/projects] is not part of the
    sources at hand.  The component reads [id] only; [attributes] stands
    for everything else a project carries, as key and value pairs. *)
Module Project.
Record t : Type := {
  id : string;
  attributes : list (string * string)
}.
End Project.

(** ** What the component reads and what it acts on

    The component is handed [pullRequest] as a prop, finds [project] in
    the ambient context and reads the path of the current page from the
    [page] store; all three belong to its surroundings.  Its one action
    on the surroundings is a call of [goto]; [navigation] records the
    URLs [goto] was called with, oldest first. *)
Record World : Type := {
  pullRequest : PullRequest.t;
  project : Project.t;
  pathname : string;
  navigation : list string
}.

(** Script code runs in the world and either returns or throws. *)
Definition M : Type -> Type := stateT World (sum JS.error).

Definition run {A} (c : M A) (w : World) : JS.error + (A * World) :=
  runStateT c w.

(** A property read that may throw, as a step of a script. *)
Definition read {A} (r : JS.error + A) : M A :=
  match r with
  | inl e => raise e
  | inr a => ret a
  end.

(** [goto(url)] of [$app/navigation]: hands [url] to the router. *)
Definition goto (url : string) : M unit :=
  w <- get ;;
  put {| pullRequest := pullRequest w;
         project := project w;
         pathname := pathname w;
         navigation := navigation w ++ [url] |}.

(** ** The views the component renders through *)

Module AvatarGrouping.
Record avatar : Type := {
  srcUrl : option string;
  name : string
}.

(** One [<AvatarGrouping avatars={...} />] element. *)
Record t : Type := { avatars : list avatar }.
End AvatarGrouping.

Module SidebarEntry.
Record lastCommit : Type := {
  authorName : string;
  lastCommitAt : option Date.t
}.

Record pullRequestInfo : Type := { pr_title : string }.

(** The attributes of the [<SidebarEntry ...>] element.  The handler
    and the snippet are passed as code, to be run by the view. *)
Record props : Type := {
  title : string;
  remotes : list string;
  local : bool;
  applied : bool;
  lastCommitDetails : lastCommit;
  pullRequestDetails : PullRequest.t + pullRequestInfo;
  onMouseDown : M unit;
  selected : bool;
  authorAvatars : M (list AvatarGrouping.t)
}.
End SidebarEntry.

(** ** The component *)

Module PullRequestSidebarEntry.

Definition formatPullRequestURL (project : Project.t) (pullRequestNumber : JS.number)
  : string :=
  JS.template ["/"; "/pull/"; ""]
              [Project.id project; JS.Number_toString pullRequestNumber].

Definition onMouseDown : M unit :=
  w <- get ;;
  goto (formatPullRequestURL (project w) (PullRequest.number (pullRequest w))).

Definition selected : M bool :=
  w <- get ;;
  ret (JS.strict_eq (pathname w)
         (formatPullRequestURL (project w) (PullRequest.number (pullRequest w)))).

(** The [authorAvatars] snippet: the elements it renders. *)
Definition authorAvatars : M (list AvatarGrouping.t) :=
  w <- get ;;
  let author := PullRequest.author (pullRequest w) in
  if JS.truthy (JS.opt_chain author Author.gravatarUrl) then
    srcUrl <- read (JS.member author "gravatarUrl" Author.gravatarUrl) ;;
    name <- read (JS.member author "name" Author.name) ;;
    ret [ {| AvatarGrouping.avatars :=
               [ {| AvatarGrouping.srcUrl := srcUrl;
                    AvatarGrouping.name := JS.or name "unknown" |} ] |} ]
  else
    ret [].

(** The markup: one [SidebarEntry] with these attributes. *)
Definition render : M SidebarEntry.props :=
  w <- get ;;
  isSelected <- selected ;;
  ret {| SidebarEntry.title := PullRequest.title (pullRequest w);
         SidebarEntry.remotes := [];
         SidebarEntry.local := false;
         SidebarEntry.applied := false;
         SidebarEntry.lastCommitDetails :=
           {| SidebarEntry.authorName :=
                JS.or (JS.opt_chain (PullRequest.author (pullRequest w)) Author.name)
                      "Unknown";
              SidebarEntry.lastCommitAt := PullRequest.modifiedAt (pullRequest w) |};
         SidebarEntry.pullRequestDetails :=
           JS.and (pullRequest w)
                  {| SidebarEntry.pr_title := PullRequest.title (pullRequest w) |};
         SidebarEntry.onMouseDown := onMouseDown;
         SidebarEntry.selected := isSelected;
         SidebarEntry.authorAvatars := authorAvatars |}.

End PullRequestSidebarEntry.

Import PullRequestSidebarEntry.

(** ** The two pull requests the specification works through *)

Definition alice_pr : PullRequest.t :=
  {| PullRequest.number := 42%Z;
     PullRequest.title := "Fix bug";
     PullRequest.author :=
       Some {| Author.name := Some "Alice";
               Author.gravatarUrl := Some "http://x/a.png" |};
     PullRequest.modifiedAt := Some {| Date.getTime := 1700000000000%Z |} |}.

Definition orphan_pr : PullRequest.t :=
  {| PullRequest.number := 7%Z;
     PullRequest.title := "No author";
     PullRequest.author := None;
     PullRequest.modifiedAt := Some {| Date.getTime := 1700000360000%Z |} |}.

Definition world_of (pr : PullRequest.t) (projectId path : string) : World :=
  {| pullRequest := pr;
     project := {| Project.id := projectId; Project.attributes := [] |};
     pathname := path;
     navigation := [] |}.

(** A pull request whose author has a name and an avatar URL that is
    the empty string. *)
Definition blank_gravatar_pr : PullRequest.t :=
  {| PullRequest.number := 3%Z;
     PullRequest.title := "Bump deps";
     PullRequest.author :=
       Some {| Author.name := Some "Bob"; Author.gravatarUrl := Some "" |};
     PullRequest.modifiedAt := None |}.

(** A pull request whose author has an avatar but an empty name. *)
Definition blank_name_pr : PullRequest.t :=
  {| PullRequest.number := 4%Z;
     PullRequest.title := "Typo";
     PullRequest.author :=
       Some {| Author.name := Some ""; Author.gravatarUrl := Some "http://x/b.png" |};
     PullRequest.modifiedAt := None |}.

(** A pull request whose author has neither name nor avatar. *)
Definition nameless_pr : PullRequest.t :=
  {| PullRequest.number := 5%Z;
     PullRequest.title := "Docs";
     PullRequest.author :=
       Some {| Author.name := None; Author.gravatarUrl := None |};
     PullRequest.modifiedAt := None |}.

(** The world of [world_of alice_pr "proj1" "/proj1/pull/42"] later on:
    the project carries further attributes and [goto] has been called
    before. *)
Definition busy_world : World :=
  {| pullRequest := alice_pr;
     project := {| Project.id := "proj1";
                   Project.attributes := [("title", "GitButler"); ("path", "/home/me/gb")] |};
     pathname := "/proj1/pull/42";
     navigation := ["/proj1/pull/7"; "/proj1/board"] |}.

(** ** Vocabulary of the statements *)

(** What a script returned or threw, the final world left aside. *)
Definition outcome {A} (r : JS.error + (A * World)) : JS.error + A :=
  match r with
  | inl e => inl e
  | inr (a, _) => inr a
  end.

(** [c] returns in [w], it does not throw. *)
Definition returns {A} (c : M A) (w : World) : Prop :=
  exists a w', run c w = inr (a, w').

(** Whenever [c] returns, the pull-request record and the project are
    what they were. *)
Definition frames {A} (c : M A) : Prop :=
  forall w a w', run c w = inr (a, w') ->
    pullRequest w' = pullRequest w /\ project w' = project w.

(** [c] always returns, and leaves the pull-request record and the
    project as they were. *)
Definition read_only {A} (c : M A) : Prop :=
  forall w, exists a w', run c w = inr (a, w') /\
    pullRequest w' = pullRequest w /\ project w' = project w.

(** The world once [goto] has been called with [url]. *)
Definition after_goto (w : World) (url : string) : World :=
  {| pullRequest := pullRequest w;
     project := project w;
     pathname := pathname w;
     navigation := navigation w ++ [url] |}.

(** The inputs of the component: the pull-request record, the id of the
    ambient project and the path of the current page. *)
Definition same_inputs (w1 w2 : World) : Prop :=
  pullRequest w1 = pullRequest w2 /\
  Project.id (project w1) = Project.id (project w2) /\
  pathname w1 = pathname w2.

(** The avatar sentence of the specification, read to the letter: a
    [gravatarUrl] that is there, whatever string it is, yields one avatar
    carrying it, named by the author's name when that is there. *)
Definition avatar_for_every_defined_gravatarUrl (w : World) : Prop :=
  forall a url,
    PullRequest.author (pullRequest w) = Some a ->
    Author.gravatarUrl a = Some url ->
    run authorAvatars w =
    inr ([ {| AvatarGrouping.avatars :=
                [ {| AvatarGrouping.srcUrl := Some url;
                     AvatarGrouping.name :=
                       match Author.name a with
                       | Some n => n
                       | None => "unknown"
                       end |} ] |} ], w).

(** [alice_pr] after an edit on the host: the number stays, the title
    is new, author and date are gone. *)
Definition edited_alice_pr : PullRequest.t :=
  {| PullRequest.number := 42%Z;
     PullRequest.title := "Fix the bug";
     PullRequest.author := None;
     PullRequest.modifiedAt := None |}.

(** Another pull request by the author of [alice_pr]. *)
Definition alice_second_pr : PullRequest.t :=
  {| PullRequest.number := 43%Z;
     PullRequest.title := "Follow-up";
     PullRequest.author := PullRequest.author alice_pr;
     PullRequest.modifiedAt := None |}.

(** Whether the character [c] occurs in [s]. *)
Fixpoint mentions (c : ascii) (s : string) : bool :=
  match s with
  | EmptyString => false
  | String a s' => Ascii.eqb a c || mentions c s'
  end.

(** The world once the router has made [path] the current page. *)
Definition arrived (w : World) (path : string) : World :=
  {| pullRequest := pullRequest w;
     project := project w;
     pathname := path;
     navigation := navigation w |}.

(** [k] pointer-downs in a row, each delivered to the handler. *)
Fixpoint clicks (k : nat) : M unit :=
  match k with
  | O => ret tt
  | S k' => onMouseDown ;; clicks k'
  end.

(** ** Running the scripts *)

Lemma run_bind {A B} (c : M A) (k : A -> M B) (w : World) :
  run (bind c k) w =
  match run c w with
  | inl e => inl e
  | inr (a, w1) => run (k a) w1
  end.
Proof. unfold run. simpl. destruct (runStateT c w) as [e | [a w1]]; reflexivity. Qed.

Lemma append_empty_r (s : string) : s ++ "" = s.
Proof. induction s as [| c s IH]; simpl; [reflexivity | now rewrite IH]. Qed.

Lemma formatPullRequestURL_unfold (pj : Project.t) (n : JS.number) :
  formatPullRequestURL pj n = "/" ++ Project.id pj ++ "/pull/" ++ JS.Number_toString n.
Proof.
  unfold formatPullRequestURL. simpl. rewrite append_empty_r. reflexivity.
Qed.

Lemma run_selected (w : World) :
  run selected w =
  inr (JS.strict_eq (pathname w)
         (formatPullRequestURL (project w) (PullRequest.number (pullRequest w))), w).
Proof. reflexivity. Qed.

Lemma run_onMouseDown (w : World) :
  run onMouseDown w =
  inr (tt, {| pullRequest := pullRequest w;
              project := project w;
              pathname := pathname w;
              navigation :=
                navigation w ++
                [formatPullRequestURL (project w) (PullRequest.number (pullRequest w))] |}).
Proof. reflexivity. Qed.

(** The snippet, by cases on what the guard of its [#if] sees. *)
Lemma run_authorAvatars_truthy (w : World) (a : Author.t) (c : ascii) (url : string) :
  PullRequest.author (pullRequest w) = Some a ->
  Author.gravatarUrl a = Some (String c url) ->
  run authorAvatars w =
  inr ([ {| AvatarGrouping.avatars :=
              [ {| AvatarGrouping.srcUrl := Some (String c url);
                   AvatarGrouping.name := JS.or (Author.name a) "unknown" |} ] |} ], w).
Proof.
  intros Ha Hg. unfold authorAvatars. rewrite run_bind. simpl.
  rewrite Ha. simpl. rewrite Hg. reflexivity.
Qed.

Lemma run_authorAvatars_falsy (w : World) :
  JS.truthy (JS.opt_chain (PullRequest.author (pullRequest w)) Author.gravatarUrl) = false ->
  run authorAvatars w = inr ([], w).
Proof.
  destruct w as [[n t [[nm g] |] m] pj path nav]; simpl; intros Hf.
  - destruct g as [[| c url] |]; [reflexivity | discriminate Hf | reflexivity].
  - reflexivity.
Qed.

(** ** Reads leave the records alone *)

Lemma frames_ret {A} (a : A) : frames (ret a : M A).
Proof. intros w a' w' H. inversion H. split; reflexivity. Qed.

Lemma frames_get : frames (get : M World).
Proof. intros w a' w' H. inversion H. split; reflexivity. Qed.

Lemma frames_read {A} (r : JS.error + A) : frames (read r).
Proof.
  intros w a w' H. destruct r as [e | v]; simpl in H.
  - discriminate H.
  - inversion H. split; reflexivity.
Qed.

Lemma frames_goto (url : string) : frames (goto url).
Proof. intros w a w' H. inversion H. split; reflexivity. Qed.

Lemma frames_bind {A B} (c : M A) (k : A -> M B) :
  frames c -> (forall a, frames (k a)) -> frames (bind c k).
Proof.
  intros Hc Hk w b w' H. rewrite run_bind in H.
  destruct (run c w) as [e | [a w1]] eqn:Ec; [discriminate H |].
  destruct (Hc _ _ _ Ec) as [Hp Hq].
  destruct (Hk a _ _ _ H) as [Hp' Hq'].
  split; congruence.
Qed.

Lemma frames_if {A} (b : bool) (c1 c2 : M A) :
  frames c1 -> frames c2 -> frames (if b then c1 else c2).
Proof. destruct b; auto. Qed.

Create HintDb frame.
#[local] Hint Resolve frames_ret frames_get frames_read frames_goto : frame.

Ltac frame :=
  repeat first
    [ solve [auto with frame]
    | apply frames_if
    | apply frames_bind; [| intro] ].

Lemma frames_selected : frames selected.
Proof. unfold selected. frame. Qed.

Lemma frames_onMouseDown : frames onMouseDown.
Proof. unfold onMouseDown. frame. Qed.

Lemma frames_authorAvatars : frames authorAvatars.
Proof. unfold authorAvatars. frame. Qed.

Lemma frames_render : frames render.
Proof. unfold render. frame. Qed.

(** ** The guarded reads do not throw *)

Lemma selected_returns (w : World) : returns selected w.
Proof. do 2 eexists. apply run_selected. Qed.

Lemma onMouseDown_returns (w : World) : returns onMouseDown w.
Proof. do 2 eexists. apply run_onMouseDown. Qed.

Lemma authorAvatars_returns (w : World) : returns authorAvatars w.
Proof.
  destruct (JS.truthy (JS.opt_chain (PullRequest.author (pullRequest w)) Author.gravatarUrl))
    eqn:Ht.
  - destruct (PullRequest.author (pullRequest w)) as [a |] eqn:Ha; [| discriminate Ht].
    simpl in Ht. destruct (Author.gravatarUrl a) as [[| c url] |] eqn:Hg;
      try discriminate Ht.
    do 2 eexists. eapply run_authorAvatars_truthy; eassumption.
  - do 2 eexists. apply run_authorAvatars_falsy. exact Ht.
Qed.

Lemma render_returns (w : World) : returns render w.
Proof. do 2 eexists. reflexivity. Qed.

Lemma read_only_intro {A} (c : M A) :
  frames c -> (forall w, returns c w) -> read_only c.
Proof.
  intros Hf Hr w. destruct (Hr w) as (a & w' & E).
  exists a, w'. split; [exact E | exact (Hf _ _ _ E)].
Qed.

(** ** The URL and the selection *)

(** C1: for every project and every pull request, the navigation URL that
    [formatPullRequestURL] computes is the string made of a slash, the
    project id, the segment [/pull/] and the pull-request number, in this
    order and with nothing else. *)
Theorem formatPullRequestURL_exact (pj : Project.t) (pr : PullRequest.t) :
  formatPullRequestURL pj (PullRequest.number pr) =
  "/" ++ Project.id pj ++ "/pull/" ++ JS.Number_toString (PullRequest.number pr).
Proof. apply formatPullRequestURL_unfold. Qed.

(** C2: the derived [selected] flag, which is also the one handed to the
    entry view, is true exactly when the path of the current page is the
    same string as the URL computed for the project and the number of the
    pull request. *)
Theorem selected_iff_pathname_is_url (w : World) :
  exists b : bool,
    run selected w = inr (b, w) /\
    (b = true <->
     pathname w = formatPullRequestURL (project w) (PullRequest.number (pullRequest w))) /\
    exists p, run render w = inr (p, w) /\ SidebarEntry.selected p = b.
Proof.
  eexists. split; [apply run_selected |]. split.
  - unfold JS.strict_eq. apply String.eqb_eq.
  - eexists. split; reflexivity.
Qed.

(** ** Click *)

(** C5: the handler the component passes to the entry view calls [goto]
    once, with the URL made of the id of the ambient project and the
    number of the pull request, and does nothing else: it returns, the
    record, the project and the page path are as before, and the one new
    call is added after the earlier ones. *)
Theorem onMouseDown_navigates_to_url (w : World) :
  exists p,
    run render w = inr (p, w) /\
    run (SidebarEntry.onMouseDown p) w =
    inr (tt, {| pullRequest := pullRequest w;
                project := project w;
                pathname := pathname w;
                navigation :=
                  navigation w ++
                  ["/" ++ Project.id (project w) ++ "/pull/" ++
                   JS.Number_toString (PullRequest.number (pullRequest w))] |}).
Proof.
  eexists. split; [reflexivity |]. simpl SidebarEntry.onMouseDown.
  rewrite run_onMouseDown, formatPullRequestURL_unfold. reflexivity.
Qed.

(** ** What the entry view is given *)

(** C6: the attributes handed to the entry view always carry the title of
    the pull request, no remotes, [local] and [applied] both false, a
    last-commit descriptor dated [modifiedAt], and a pull-request
    descriptor that holds the title and nothing else. *)
Theorem render_forwards_fixed_props (w : World) :
  exists p,
    run render w = inr (p, w) /\
    SidebarEntry.title p = PullRequest.title (pullRequest w) /\
    SidebarEntry.remotes p = [] /\
    SidebarEntry.local p = false /\
    SidebarEntry.applied p = false /\
    SidebarEntry.lastCommitAt (SidebarEntry.lastCommitDetails p) =
      PullRequest.modifiedAt (pullRequest w) /\
    SidebarEntry.pullRequestDetails p =
      inr {| SidebarEntry.pr_title := PullRequest.title (pullRequest w) |}.
Proof.
  eexists. split; [reflexivity |]. simpl. repeat split.
Qed.

(** C4: when the pull request has no author, and likewise when it has an
    author without a name, the author label of the last-commit descriptor
    is the capitalised word Unknown. *)
Theorem lastCommit_author_unknown (w : World) :
  PullRequest.author (pullRequest w) = None \/
  (exists a, PullRequest.author (pullRequest w) = Some a /\ Author.name a = None) ->
  exists p,
    run render w = inr (p, w) /\
    SidebarEntry.authorName (SidebarEntry.lastCommitDetails p) = "Unknown".
Proof.
  intros H. eexists. split; [reflexivity |]. simpl.
  destruct H as [Hnone | (a & Ha & Hname)].
  - rewrite Hnone. reflexivity.
  - rewrite Ha. simpl. rewrite Hname. reflexivity.
Qed.

Lemma lastCommit_author_unknown_witness :
  (exists p,
     run render (world_of orphan_pr "proj2" "/") = inr (p, world_of orphan_pr "proj2" "/") /\
     SidebarEntry.authorName (SidebarEntry.lastCommitDetails p) = "Unknown") /\
  (exists p,
     run render (world_of nameless_pr "proj2" "/") = inr (p, world_of nameless_pr "proj2" "/") /\
     SidebarEntry.authorName (SidebarEntry.lastCommitDetails p) = "Unknown").
Proof.
  split.
  - apply (lastCommit_author_unknown (world_of orphan_pr "proj2" "/")).
    left. reflexivity.
  - apply (lastCommit_author_unknown (world_of nameless_pr "proj2" "/")).
    right. eexists. split; reflexivity.
Defined.

(** ** Avatars *)

(** C3, as the specification words it, fails: the author of
    [blank_gravatar_pr] has a [gravatarUrl], the empty string, and the
    snippet renders no avatar for it. *)
Lemma avatar_for_every_defined_gravatarUrl_fails :
  run authorAvatars (world_of blank_gravatar_pr "proj1" "/") =
    inr ([], world_of blank_gravatar_pr "proj1" "/") /\
  ~ avatar_for_every_defined_gravatarUrl (world_of blank_gravatar_pr "proj1" "/").
Proof.
  split; [reflexivity |].
  intros H. specialize (H _ "" eq_refl eq_refl). discriminate H.
Qed.

(** C3, amended: when the author has a [gravatarUrl] other than the empty
    string, the snippet renders one avatar group with one avatar, whose
    [srcUrl] is that URL and whose name is the author's name when that is
    there and not empty, and the lowercase word unknown otherwise; when
    there is no author, no [gravatarUrl], or an empty one, the snippet
    renders nothing. *)
Theorem authorAvatars_by_gravatarUrl (w : World) :
  (forall a url,
     PullRequest.author (pullRequest w) = Some a ->
     Author.gravatarUrl a = Some url ->
     url <> "" ->
     run authorAvatars w =
     inr ([ {| AvatarGrouping.avatars :=
                 [ {| AvatarGrouping.srcUrl := Some url;
                      AvatarGrouping.name :=
                        match Author.name a with
                        | Some (String c n) => String c n
                        | Some EmptyString | None => "unknown"
                        end |} ] |} ], w)) /\
  (PullRequest.author (pullRequest w) = None \/
   (exists a, PullRequest.author (pullRequest w) = Some a /\
              (Author.gravatarUrl a = None \/ Author.gravatarUrl a = Some "")) ->
   run authorAvatars w = inr ([], w)).
Proof.
  split.
  - intros a [| c url] Ha Hg Hne; [contradiction Hne; reflexivity |].
    rewrite (run_authorAvatars_truthy w a c url Ha Hg).
    destruct (Author.name a) as [[| c' n] |]; reflexivity.
  - intros H. apply run_authorAvatars_falsy.
    destruct H as [Hnone | (a & Ha & [Hg | Hg])].
    + rewrite Hnone. reflexivity.
    + rewrite Ha. simpl. rewrite Hg. reflexivity.
    + rewrite Ha. simpl. rewrite Hg. reflexivity.
Qed.

Lemma authorAvatars_by_gravatarUrl_witness :
  run authorAvatars (world_of alice_pr "proj1" "/") =
    inr ([ {| AvatarGrouping.avatars :=
                [ {| AvatarGrouping.srcUrl := Some "http://x/a.png";
                     AvatarGrouping.name := "Alice" |} ] |} ],
         world_of alice_pr "proj1" "/") /\
  run authorAvatars (world_of orphan_pr "proj2" "/") =
    inr ([], world_of orphan_pr "proj2" "/").
Proof.
  split.
  - apply (proj1 (authorAvatars_by_gravatarUrl (world_of alice_pr "proj1" "/"))
             {| Author.name := Some "Alice"; Author.gravatarUrl := Some "http://x/a.png" |}
             "http://x/a.png");
      [reflexivity | reflexivity | discriminate].
  - apply (proj2 (authorAvatars_by_gravatarUrl (world_of orphan_pr "proj2" "/"))).
    left. reflexivity.
Defined.

(** C9: the fallbacks test truthiness, not definedness.  For an author
    whose name is the empty string the last-commit author label is
    Unknown and the avatar, when there is one, is named unknown; for an
    author whose [gravatarUrl] is the empty string the snippet renders
    nothing, as it does without a [gravatarUrl]. *)
Theorem fallbacks_are_falsy_coalescing (w : World) (a : Author.t) :
  PullRequest.author (pullRequest w) = Some a ->
  (Author.name a = Some "" ->
   exists p,
     run render w = inr (p, w) /\
     SidebarEntry.authorName (SidebarEntry.lastCommitDetails p) = "Unknown") /\
  (Author.name a = Some "" ->
   forall url, Author.gravatarUrl a = Some url -> url <> "" ->
     run authorAvatars w =
     inr ([ {| AvatarGrouping.avatars :=
                 [ {| AvatarGrouping.srcUrl := Some url;
                      AvatarGrouping.name := "unknown" |} ] |} ], w)) /\
  (Author.gravatarUrl a = Some "" ->
   run authorAvatars w = inr ([], w)).
Proof.
  intros Ha. split; [| split].
  - intros Hname. eexists. split; [reflexivity |].
    simpl. rewrite Ha. simpl. rewrite Hname. reflexivity.
  - intros Hname [| c url] Hg Hne; [contradiction Hne; reflexivity |].
    rewrite (run_authorAvatars_truthy w a c url Ha Hg), Hname. reflexivity.
  - intros Hg. apply run_authorAvatars_falsy. rewrite Ha. simpl. rewrite Hg. reflexivity.
Qed.

Lemma fallbacks_are_falsy_coalescing_witness :
  (exists p,
     run render (world_of blank_name_pr "proj1" "/") =
       inr (p, world_of blank_name_pr "proj1" "/") /\
     SidebarEntry.authorName (SidebarEntry.lastCommitDetails p) = "Unknown") /\
  run authorAvatars (world_of blank_name_pr "proj1" "/") =
    inr ([ {| AvatarGrouping.avatars :=
                [ {| AvatarGrouping.srcUrl := Some "http://x/b.png";
                     AvatarGrouping.name := "unknown" |} ] |} ],
         world_of blank_name_pr "proj1" "/") /\
  run authorAvatars (world_of blank_gravatar_pr "proj1" "/") =
    inr ([], world_of blank_gravatar_pr "proj1" "/").
Proof.
  pose proof (fallbacks_are_falsy_coalescing (world_of blank_name_pr "proj1" "/")
                {| Author.name := Some ""; Author.gravatarUrl := Some "http://x/b.png" |}
                eq_refl) as [Hlabel [Hname _]].
  pose proof (fallbacks_are_falsy_coalescing (world_of blank_gravatar_pr "proj1" "/")
                {| Author.name := Some "Bob"; Author.gravatarUrl := Some "" |}
                eq_refl) as [_ [_ Hblank]].
  split; [| split].
  - apply Hlabel. reflexivity.
  - apply (Hname eq_refl "http://x/b.png"); [reflexivity | discriminate].
  - apply Hblank. reflexivity.
Defined.

(** ** No exception, no write, no hidden input *)

(** C7: for every pull request, with or without author and modification
    date, computing the attributes, deriving [selected], rendering the
    avatar snippet and running the handler all return: the one read that
    could throw, of a property of the author, is only reached when the
    author is there. *)
Theorem component_never_throws (w : World) :
  exists p,
    run render w = inr (p, w) /\
    returns selected w /\
    returns (SidebarEntry.authorAvatars p) w /\
    returns (SidebarEntry.onMouseDown p) w.
Proof.
  eexists. split; [reflexivity |]. simpl.
  split; [apply selected_returns |].
  split; [apply authorAvatars_returns | apply onMouseDown_returns].
Qed.

(** C8: rendering, deriving [selected], rendering the avatar snippet and
    handling a click each return with the pull-request record and the
    project object exactly as they found them. *)
Theorem component_is_read_only :
  read_only render /\ read_only selected /\
  read_only authorAvatars /\ read_only onMouseDown.
Proof.
  repeat split; apply read_only_intro;
    auto using frames_render, frames_selected, frames_authorAvatars, frames_onMouseDown,
               render_returns, selected_returns, authorAvatars_returns, onMouseDown_returns.
Qed.

(** C10: two evaluations that agree on the pull-request record, on the id
    of the ambient project and on the path of the current page agree on
    the URL, on [selected], on every attribute handed to the entry view,
    on the avatars the snippet renders and on the URL the handler
    navigates to, whatever else differs between them. *)
Theorem component_is_deterministic (w1 w2 : World) :
  same_inputs w1 w2 ->
  formatPullRequestURL (project w1) (PullRequest.number (pullRequest w1)) =
    formatPullRequestURL (project w2) (PullRequest.number (pullRequest w2)) /\
  outcome (run selected w1) = outcome (run selected w2) /\
  outcome (run render w1) = outcome (run render w2) /\
  outcome (run authorAvatars w1) = outcome (run authorAvatars w2) /\
  exists url,
    run onMouseDown w1 = inr (tt, after_goto w1 url) /\
    run onMouseDown w2 = inr (tt, after_goto w2 url).
Proof.
  intros (Hpr & Hid & Hpath).
  destruct w1 as [pr1 [id1 attrs1] path1 nav1], w2 as [pr2 [id2 attrs2] path2 nav2].
  simpl in Hpr, Hid, Hpath. subst pr2 id2 path2.
  do 3 (split; [reflexivity |]). split.
  - destruct pr1 as [n t [[nm [[| c url] |]] |] m]; reflexivity.
  - eexists. split; reflexivity.
Qed.

Lemma component_is_deterministic_witness :
  same_inputs (world_of alice_pr "proj1" "/proj1/pull/42") busy_world /\
  outcome (run render (world_of alice_pr "proj1" "/proj1/pull/42")) =
    outcome (run render busy_world) /\
  outcome (run authorAvatars (world_of alice_pr "proj1" "/proj1/pull/42")) =
    outcome (run authorAvatars busy_world).
Proof.
  assert (H : same_inputs (world_of alice_pr "proj1" "/proj1/pull/42") busy_world)
    by (repeat split).
  split; [exact H |].
  destruct (component_is_deterministic _ _ H) as (_ & _ & Hrender & Havatars & _).
  split; [exact Hrender | exact Havatars].
Defined.

(** ** The worked examples of the specification *)

Example Number_toString_42 : JS.Number_toString 42%Z = "42".
Proof. reflexivity. Qed.

Example Number_toString_0 : JS.Number_toString 0%Z = "0".
Proof. reflexivity. Qed.

Example alice_url :
  formatPullRequestURL (project (world_of alice_pr "proj1" "/")) 42%Z = "/proj1/pull/42".
Proof. reflexivity. Qed.

Example orphan_url :
  formatPullRequestURL (project (world_of orphan_pr "proj2" "/")) 7%Z = "/proj2/pull/7".
Proof. reflexivity. Qed.

Example alice_avatars :
  outcome (run authorAvatars (world_of alice_pr "proj1" "/")) =
  inr [ {| AvatarGrouping.avatars :=
             [ {| AvatarGrouping.srcUrl := Some "http://x/a.png";
                  AvatarGrouping.name := "Alice" |} ] |} ].
Proof. reflexivity. Qed.

Example orphan_avatars :
  outcome (run authorAvatars (world_of orphan_pr "proj2" "/")) = inr [].
Proof. reflexivity. Qed.

Example alice_lastCommit :
  exists p,
    outcome (run render (world_of alice_pr "proj1" "/")) = inr p /\
    SidebarEntry.lastCommitDetails p =
    {| SidebarEntry.authorName := "Alice";
       SidebarEntry.lastCommitAt := PullRequest.modifiedAt alice_pr |}.
Proof. eexists. split; reflexivity. Qed.

Example orphan_lastCommit :
  exists p,
    outcome (run render (world_of orphan_pr "proj2" "/")) = inr p /\
    SidebarEntry.lastCommitDetails p =
    {| SidebarEntry.authorName := "Unknown";
       SidebarEntry.lastCommitAt := PullRequest.modifiedAt orphan_pr |}.
Proof. eexists. split; reflexivity. Qed.

(** No normalisation: a trailing slash is another path. *)
Example trailing_slash_not_selected :
  outcome (run selected (world_of alice_pr "proj1" "/proj1/pull/42/")) = inr false /\
  outcome (run selected (world_of alice_pr "proj1" "/proj1/pull/42")) = inr true.
Proof. split; reflexivity. Qed.

(** ** Strings: the last slash of a path *)

Lemma mentions_append (c : ascii) (a b : string) :
  mentions c (a ++ b) = mentions c a || mentions c b.
Proof.
  induction a as [| x a IH]; simpl; [reflexivity |].
  rewrite IH. apply orb_assoc.
Qed.

(** Two paths that end in a slash-free segment are equal only when the
    segments are, and what comes before the last slash is. *)
Lemma split_at_last_slash (a b s1 s2 : string) :
  mentions "/" s1 = false ->
  mentions "/" s2 = false ->
  a ++ String "/" s1 = b ++ String "/" s2 ->
  a = b /\ s1 = s2.
Proof.
  intros H1 H2. revert b.
  induction a as [| x a IH]; intros [| y b] E; simpl in E.
  - injection E as E. split; [reflexivity | exact E].
  - injection E as _ E. rewrite E, mentions_append in H1. simpl in H1.
    rewrite orb_true_r in H1. discriminate H1.
  - injection E as _ E. rewrite <- E, mentions_append in H2. simpl in H2.
    rewrite orb_true_r in H2. discriminate H2.
  - injection E as Exy E. destruct (IH _ E) as [Hab Hs].
    split; [congruence | exact Hs].
Qed.

Lemma string_of_uint_slash_free (d : Decimal.uint) :
  mentions "/" (NilEmpty.string_of_uint d) = false.
Proof. induction d; simpl; auto. Qed.

Lemma Number_toString_slash_free (n : JS.number) :
  mentions "/" (JS.Number_toString n) = false.
Proof.
  unfold JS.Number_toString.
  destruct (Z.to_int n) as [d | d]; simpl;
    destruct d; simpl; auto using string_of_uint_slash_free.
Qed.

Lemma to_int_proper (n : Z) :
  Z.to_int n <> Decimal.Pos Decimal.Nil /\ Z.to_int n <> Decimal.Neg Decimal.Nil.
Proof.
  destruct n as [| p | p]; simpl; split; try discriminate;
    intros [= H]; exact (DecimalPos.Unsigned.to_uint_nonnil p H).
Qed.

(** [ToString] tells numbers apart. *)
Lemma Number_toString_inj (n m : JS.number) :
  JS.Number_toString n = JS.Number_toString m -> n = m.
Proof.
  unfold JS.Number_toString. intros E.
  apply DecimalZ.to_int_inj.
  destruct (to_int_proper n) as [Hn1 Hn2], (to_int_proper m) as [Hm1 Hm2].
  pose proof (NilZero.isi _ Hn1 Hn2) as In.
  pose proof (NilZero.isi _ Hm1 Hm2) as Im.
  rewrite E in In. congruence.
Qed.

Lemma pull_segment_assoc (i s : string) :
  i ++ "/pull/" ++ s = (i ++ "/pull") ++ String "/" s.
Proof. induction i as [| x i IH]; simpl; [reflexivity | f_equal; exact IH]. Qed.

Lemma formatPullRequestURL_last_slash (pj : Project.t) (n : JS.number) :
  formatPullRequestURL pj n =
  String "/" ((Project.id pj ++ "/pull") ++ String "/" (JS.Number_toString n)).
Proof.
  rewrite formatPullRequestURL_unfold. simpl. f_equal. apply pull_segment_assoc.
Qed.

Lemma url_determines_entry (p1 p2 : Project.t) (n1 n2 : JS.number) :
  formatPullRequestURL p1 n1 = formatPullRequestURL p2 n2 ->
  Project.id p1 = Project.id p2 /\ n1 = n2.
Proof.
  rewrite !formatPullRequestURL_last_slash. intros E.
  injection E as E.
  apply split_at_last_slash in E; try apply Number_toString_slash_free.
  destruct E as [Eid En]. split.
  - change (Project.id p1 ++ String "/" "pull" = Project.id p2 ++ String "/" "pull") in Eid.
    apply split_at_last_slash in Eid; [apply Eid | reflexivity | reflexivity].
  - apply Number_toString_inj. exact En.
Qed.

Lemma selected_true (w : World) :
  outcome (run selected w) = inr true ->
  pathname w = formatPullRequestURL (project w) (PullRequest.number (pullRequest w)).
Proof.
  rewrite run_selected. simpl. intros [= E]. apply String.eqb_eq. exact E.
Qed.

(** ** One URL, one pull request *)

(** The URL tells both the project and the pull request: two URLs are
    the same string only for the same project id and the same number,
    even when a project id itself contains slashes or the word pull. *)
Theorem formatPullRequestURL_injective (p1 p2 : Project.t) (n1 n2 : JS.number) :
  formatPullRequestURL p1 n1 = formatPullRequestURL p2 n2 ->
  Project.id p1 = Project.id p2 /\ n1 = n2.
Proof. apply url_determines_entry. Qed.

Lemma formatPullRequestURL_injective_witness :
  formatPullRequestURL (project (world_of alice_pr "proj1" "/")) 42%Z =
    formatPullRequestURL (project busy_world) 42%Z /\
  Project.id (project (world_of alice_pr "proj1" "/")) = Project.id (project busy_world).
Proof.
  split; [reflexivity |].
  apply (formatPullRequestURL_injective
           (project (world_of alice_pr "proj1" "/")) (project busy_world) 42%Z 42%Z).
  reflexivity.
Defined.

(** On one page, two entries that both show as selected stand for the
    same pull request of the same project: of the entries of a sidebar
    with distinct numbers, at most one is highlighted. *)
Theorem selected_entries_coincide (w1 w2 : World) :
  pathname w1 = pathname w2 ->
  outcome (run selected w1) = inr true ->
  outcome (run selected w2) = inr true ->
  Project.id (project w1) = Project.id (project w2) /\
  PullRequest.number (pullRequest w1) = PullRequest.number (pullRequest w2).
Proof.
  intros Hpath H1 H2. apply selected_true in H1, H2.
  apply url_determines_entry. congruence.
Qed.

Lemma selected_entries_coincide_witness :
  pathname (world_of alice_pr "proj1" "/proj1/pull/42") = pathname busy_world /\
  PullRequest.number (pullRequest (world_of alice_pr "proj1" "/proj1/pull/42")) =
    PullRequest.number (pullRequest busy_world).
Proof.
  split; [reflexivity |].
  apply (selected_entries_coincide (world_of alice_pr "proj1" "/proj1/pull/42") busy_world);
    reflexivity.
Defined.

(** ** Clicks *)

(** The handler and the selection agree on the URL: once the router has
    made the URL of a click the current page, the entry shows as
    selected. *)
Theorem click_then_arrival_selects (w : World) :
  exists url,
    run onMouseDown w = inr (tt, after_goto w url) /\
    outcome (run selected (arrived (after_goto w url) url)) = inr true.
Proof.
  eexists. split; [apply run_onMouseDown |].
  rewrite run_selected. simpl. unfold JS.strict_eq.
  rewrite String.eqb_refl. reflexivity.
Qed.

(** Every pointer-down navigates, also on an entry that is selected
    already: [k] of them in a row return with [k] more calls of [goto],
    all with the URL of the entry, and change nothing else. *)
Theorem clicks_navigate_each_time (k : nat) (w : World) :
  run (clicks k) w =
  inr (tt, {| pullRequest := pullRequest w;
              project := project w;
              pathname := pathname w;
              navigation :=
                navigation w ++
                repeat (formatPullRequestURL (project w) (PullRequest.number (pullRequest w)))
                       k |}).
Proof.
  revert w. induction k as [| k IH]; intros w.
  - simpl. rewrite app_nil_r. destruct w; reflexivity.
  - change (clicks (S k)) with (bind onMouseDown (fun _ => clicks k)).
    rewrite run_bind, run_onMouseDown, IH. simpl.
    rewrite <- app_assoc. reflexivity.
Qed.

(** ** What the author contributes *)

Lemma render_label (w : World) (p : SidebarEntry.props) :
  run render w = inr (p, w) ->
  SidebarEntry.authorName (SidebarEntry.lastCommitDetails p) =
  JS.or (JS.opt_chain (PullRequest.author (pullRequest w)) Author.name) "Unknown".
Proof.
  unfold render. rewrite run_bind. simpl. intros [= <-]. reflexivity.
Qed.

Lemma or_never_blank (name : option string) (c : ascii) (fallback : string) :
  JS.or name (String c fallback) <> "".
Proof.
  destruct name as [[| c' n] |]; simpl; discriminate.
Qed.

(** The snippet renders nothing or one avatar group holding one avatar,
    and that avatar never has an empty image URL or an empty name. *)
Theorem authorAvatars_one_complete_avatar (w : World) :
  run authorAvatars w = inr ([], w) \/
  exists url nm,
    run authorAvatars w =
    inr ([ {| AvatarGrouping.avatars :=
                [ {| AvatarGrouping.srcUrl := Some url;
                     AvatarGrouping.name := nm |} ] |} ], w) /\
    url <> "" /\ nm <> "".
Proof.
  destruct (PullRequest.author (pullRequest w)) as [a |] eqn:Ha.
  - destruct (Author.gravatarUrl a) as [[| c url] |] eqn:Hg.
    + left. apply run_authorAvatars_falsy. rewrite Ha. simpl. rewrite Hg. reflexivity.
    + right. exists (String c url), (JS.or (Author.name a) "unknown").
      split; [apply (run_authorAvatars_truthy w a c url Ha Hg) |].
      split; [discriminate | apply or_never_blank].
    + left. apply run_authorAvatars_falsy. rewrite Ha. simpl. rewrite Hg. reflexivity.
  - left. apply run_authorAvatars_falsy. rewrite Ha. reflexivity.
Qed.

(** The author label of the last-commit descriptor is never the empty
    string, whatever the author record holds. *)
Theorem lastCommit_author_never_blank (w : World) :
  exists p,
    run render w = inr (p, w) /\
    SidebarEntry.authorName (SidebarEntry.lastCommitDetails p) <> "".
Proof.
  destruct (render_returns w) as (p & w' & E).
  assert (w' = w) by (unfold render in E; rewrite run_bind in E; simpl in E; congruence).
  subst w'. exists p. split; [exact E |].
  rewrite (render_label w p E). apply or_never_blank.
Qed.


(** ** What each part looks at *)

(** Selection and navigation look at the pull request through its number
    only: on the same page and in the same project, a pull request whose
    title, author or date changed is selected as before and navigates to
    the same URL. *)
Theorem selection_looks_at_number_only (w1 w2 : World) :
  PullRequest.number (pullRequest w1) = PullRequest.number (pullRequest w2) ->
  Project.id (project w1) = Project.id (project w2) ->
  pathname w1 = pathname w2 ->
  outcome (run selected w1) = outcome (run selected w2) /\
  exists url,
    run onMouseDown w1 = inr (tt, after_goto w1 url) /\
    run onMouseDown w2 = inr (tt, after_goto w2 url).
Proof.
  intros Hn Hid Hpath.
  assert (Hurl : formatPullRequestURL (project w1) (PullRequest.number (pullRequest w1)) =
                 formatPullRequestURL (project w2) (PullRequest.number (pullRequest w2))).
  { rewrite !formatPullRequestURL_unfold, Hid, Hn. reflexivity. }
  split.
  - rewrite !run_selected. simpl. rewrite Hurl, Hpath. reflexivity.
  - eexists. split; [apply run_onMouseDown |].
    rewrite run_onMouseDown, <- Hurl. reflexivity.
Qed.

Lemma selection_looks_at_number_only_witness :
  outcome (run selected (world_of alice_pr "proj1" "/proj1/pull/42")) =
  outcome (run selected (world_of edited_alice_pr "proj1" "/proj1/pull/42")).
Proof.
  apply (selection_looks_at_number_only
           (world_of alice_pr "proj1" "/proj1/pull/42")
           (world_of edited_alice_pr "proj1" "/proj1/pull/42"));
    reflexivity.
Defined.

(** The avatar snippet and the author label look at the author only: two
    pull requests by the same author get the same avatars and the same
    label, whatever their numbers, titles, projects and pages. *)
Theorem author_views_look_at_author_only (w1 w2 : World) :
  PullRequest.author (pullRequest w1) = PullRequest.author (pullRequest w2) ->
  outcome (run authorAvatars w1) = outcome (run authorAvatars w2) /\
  exists p1 p2,
    run render w1 = inr (p1, w1) /\
    run render w2 = inr (p2, w2) /\
    SidebarEntry.authorName (SidebarEntry.lastCommitDetails p1) =
    SidebarEntry.authorName (SidebarEntry.lastCommitDetails p2).
Proof.
  intros Ha. split.
  - destruct (PullRequest.author (pullRequest w1)) as [a |] eqn:H1; symmetry in Ha.
    + destruct (Author.gravatarUrl a) as [[| c url] |] eqn:Hg.
      * rewrite !run_authorAvatars_falsy;
          [reflexivity | rewrite Ha | rewrite H1]; simpl; rewrite Hg; reflexivity.
      * rewrite (run_authorAvatars_truthy w1 a c url H1 Hg),
                (run_authorAvatars_truthy w2 a c url Ha Hg). reflexivity.
      * rewrite !run_authorAvatars_falsy;
          [reflexivity | rewrite Ha | rewrite H1]; simpl; rewrite Hg; reflexivity.
    + rewrite !run_authorAvatars_falsy; [reflexivity | rewrite Ha | rewrite H1]; reflexivity.
  - do 2 eexists. split; [reflexivity |]. split; [reflexivity |].
    simpl. rewrite Ha. reflexivity.
Qed.

Lemma author_views_look_at_author_only_witness :
  outcome (run authorAvatars (world_of alice_pr "proj1" "/proj1/pull/42")) =
  outcome (run authorAvatars (world_of alice_second_pr "proj2" "/")).
Proof.
  apply (author_views_look_at_author_only
           (world_of alice_pr "proj1" "/proj1/pull/42")
           (world_of alice_second_pr "proj2" "/")).
  reflexivity.
Defined.

(** ** Exact match *)

Lemma length_append (a b : string) :
  String.length (a ++ b) = String.length a + String.length b.
Proof. induction a as [| x a IH]; simpl; [reflexivity | now rewrite IH]. Qed.

Lemma append_suffix_differs (a suffix : string) :
  suffix <> "" -> a ++ suffix <> a.
Proof.
  intros Hne E. apply (f_equal String.length) in E.
  rewrite length_append in E.
  destruct suffix as [| c s]; [apply Hne; reflexivity | simpl in E; lia].
Qed.

(** The path is compared as it stands: on a page whose path is the URL of
    the entry followed by anything at all, a trailing slash for one, the
    entry does not show as selected. *)
Theorem selection_is_exact_match (w : World) (suffix : string) :
  suffix <> "" ->
  outcome
    (run selected
       (arrived w (formatPullRequestURL (project w) (PullRequest.number (pullRequest w))
                   ++ suffix))) = inr false.
Proof.
  intros Hne. rewrite run_selected. simpl. f_equal.
  unfold JS.strict_eq. apply String.eqb_neq.
  apply append_suffix_differs. exact Hne.
Qed.

Lemma selection_is_exact_match_witness :
  outcome (run selected (arrived (world_of alice_pr "proj1" "/") "/proj1/pull/42/")) =
  inr false.
Proof.
  apply (selection_is_exact_match (world_of alice_pr "proj1" "/") "/").
  discriminate.
Defined.
